(** * woolly.bp.autocast.backpropagation

    A shallow embedding of [src/woolly/bp/autocast/backpropagation.py]:
    the mixed-precision training closure returned by [train] and the
    evaluation routine [test].

    The module is glue over torch.  The tensor framework is therefore an
    interface ([Framework]): every call the Python code makes into torch
    is one operation of that interface, acting on an abstract [world]
    that holds everything torch mutates (parameters, gradients, optimizer,
    scaler and scheduler state, the autocast and grad modes).  Running the
    code yields its Python result, the final world and the list of calls
    it made, in program order. *)

From Stdlib Require Import ZArith Bool String Lia QArith List.
Import ListNotations.

Set Implicit Arguments.
Local Open Scope Z_scope.

(** ** Python numbers *)

(** Python floats, with the operations the module applies to them.
    [int_truediv] is [int.__truediv__] on a non-zero divisor. *)
Class PyFloat := {
  pyfloat : Type;
  float_of_int : Z -> pyfloat;
  fadd : pyfloat -> pyfloat -> pyfloat;
  fmul : pyfloat -> pyfloat -> pyfloat;
  fdiv : pyfloat -> pyfloat -> pyfloat;
  float_is_zero : pyfloat -> bool;
  int_truediv : Z -> Z -> pyfloat
}.

Inductive exn := ZeroDivisionError.

Inductive result (A : Type) :=
| Ok (a : A)
| Raise (e : exn).
Arguments Ok {A} a.
Arguments Raise {A} e.

Definition bind_result {A B} (r : result A) (k : A -> result B) : result B :=
  match r with
  | Ok a => k a
  | Raise e => Raise e
  end.

Section Numbers.
Context {PF : PyFloat}.

(** The value of [epoch_loss], [test_loss], [correct] and of [.item()]:
    an [int] or a [float]. *)
Inductive pynum :=
| PInt (n : Z)
| PFloat (x : pyfloat).

Definition to_float (a : pynum) : pyfloat :=
  match a with
  | PInt n => float_of_int n
  | PFloat x => x
  end.

(** [a + b] *)
Definition py_add (a b : pynum) : pynum :=
  match a, b with
  | PInt m, PInt n => PInt (m + n)
  | _, _ => PFloat (fadd (to_float a) (to_float b))
  end.

(** [a * b] *)
Definition py_mul (a b : pynum) : pynum :=
  match a, b with
  | PInt m, PInt n => PInt (m * n)
  | _, _ => PFloat (fmul (to_float a) (to_float b))
  end.

Definition py_is_zero (a : pynum) : bool :=
  match a with
  | PInt n => n =? 0
  | PFloat x => float_is_zero x
  end.

(** [a / b]: true division, raising on a zero divisor. *)
Definition py_truediv (a b : pynum) : result pynum :=
  if py_is_zero b then Raise ZeroDivisionError
  else match a, b with
       | PInt m, PInt n => Ok (PFloat (int_truediv m n))
       | _, _ => Ok (PFloat (fdiv (to_float a) (to_float b)))
       end.

(** The literal [100.0]. *)
Definition hundred : pynum := PFloat (float_of_int 100).
End Numbers.

(** ** The framework interface *)

(** [torch.float16] is the only dtype the module names; the others are
    the remaining autocast dtypes. *)
Inductive dtype := float16 | bfloat16 | float32.

(** What the module calls on torch objects.  Calls that read or write
    framework state take and return the [world]; tensor methods used only
    for the statistics are functions of their tensors.  Every call is
    taken to return: exceptions raised inside torch are not modelled. *)
Class Framework {PF : PyFloat} := {
  tensor : Type;
  world : Type;
  Model : Type;
  Optimizer : Type;
  Criteria : Type;
  Scaler : Type;
  Scheduler : Type;
  (* model.train(), model.eval() *)
  model_train : Model -> world -> world;
  model_eval : Model -> world -> world;
  (* t.to(device) *)
  tensor_to : tensor -> string -> tensor;
  (* optimizer.zero_grad() *)
  optimizer_zero_grad : Optimizer -> world -> world;
  (* entering and leaving [with autocast(...)]; [None] is no dtype argument *)
  autocast_enter : option dtype -> world -> world;
  autocast_exit : option dtype -> world -> world;
  (* entering and leaving [with torch.no_grad()] *)
  no_grad_enter : world -> world;
  no_grad_exit : world -> world;
  (* model(data) is [model_call m data None],
     model(data, dropout) is [model_call m data (Some dropout)] *)
  model_call : Model -> tensor -> option bool -> world -> tensor * world;
  (* criteria(output, target) and criteria(output, target, reduction=r) *)
  criteria_call :
    Criteria -> tensor -> tensor -> option string -> world -> tensor * world;
  (* scaler.scale(loss) *)
  scaler_scale : Scaler -> tensor -> world -> tensor * world;
  (* t.backward() *)
  tensor_backward : tensor -> world -> world;
  (* scaler.step(optimizer), scaler.update(), scheduler.step() *)
  scaler_step : Scaler -> Optimizer -> world -> world;
  scaler_update : Scaler -> world -> world;
  scheduler_step : Scheduler -> world -> world;
  (* t.argmax(dim=d, keepdim=k), t.view_as(u), t.eq(u), t.sum(), t.item() *)
  tensor_argmax : tensor -> Z -> bool -> tensor;
  tensor_view_as : tensor -> tensor -> tensor;
  tensor_eq : tensor -> tensor -> tensor;
  tensor_sum : tensor -> tensor;
  tensor_item : tensor -> pynum
}.

(** A data loader: the batches one iteration yields, each a
    [(data, target)] pair, and [len(loader.dataset)].  [len(loader)] is
    the number of batches. *)
Record loader {PF : PyFloat} {FW : Framework} := {
  batches : list (tensor * tensor);
  dataset_len : nat
}.

Definition loader_len {PF : PyFloat} {FW : Framework} (l : loader) : nat :=
  List.length (batches l).

(** ** Calls into the framework *)

Section Program.
Context {PF : PyFloat} {FW : Framework}.

(** One call, with its arguments and, where it returns a tensor, the
    tensor returned. *)
Inductive event :=
| EModelTrain (m : Model)
| EModelEval (m : Model)
| ETo (t : tensor) (device : string) (r : tensor)
| EZeroGrad (o : Optimizer)
| EAutocastEnter (dt : option dtype)
| EAutocastExit (dt : option dtype)
| ENoGradEnter
| ENoGradExit
| EForward (m : Model) (data : tensor) (dropout : option bool) (out : tensor)
| ECriteria (c : Criteria) (out target : tensor)
            (reduction : option string) (loss : tensor)
| EScale (s : Scaler) (loss scaled : tensor)
| EBackward (t : tensor)
| EScalerStep (s : Scaler) (o : Optimizer)
| EScalerUpdate (s : Scaler)
| ESchedulerStep (s : Scheduler).

(** A computation over the framework: from a world to a value, the next
    world and the calls made. *)
Definition M (A : Type) : Type := world -> A * world * list event.

Definition ret {A} (a : A) : M A := fun w => (a, w, []).

Definition bind {A B} (c : M A) (k : A -> M B) : M B :=
  fun w =>
    let '(a, w1, t1) := c w in
    let '(b, w2, t2) := k a w1 in
    (b, w2, t1 ++ t2).

Notation "x <- c ;; k" := (bind c (fun x => k))
  (at level 61, c at next level, right associativity).
Notation "c ;;; k" := (bind c (fun _ => k))
  (at level 61, right associativity).

(** A call that only updates the world. *)
Definition act (e : event) (f : world -> world) : M unit :=
  fun w => (tt, f w, [e]).

(** A call that returns a tensor. *)
Definition call (f : world -> tensor * world) (e : tensor -> event)
  : M tensor :=
  fun w => let '(r, w') := f w in (r, w', [e r]).

Definition to_ (t : tensor) (device : string) : M tensor :=
  call (fun w => (tensor_to t device, w)) (ETo t device).

Definition forward (m : Model) (data : tensor) (dropout : option bool)
  : M tensor :=
  call (model_call m data dropout) (EForward m data dropout).

Definition criterion (c : Criteria) (out target : tensor)
           (reduction : option string) : M tensor :=
  call (criteria_call c out target reduction)
       (ECriteria c out target reduction).

Definition scale (s : Scaler) (loss : tensor) : M tensor :=
  call (scaler_scale s loss) (EScale s loss).

(** [with autocast(...): body] *)
Definition with_autocast {A} (dt : option dtype) (body : M A) : M A :=
  act (EAutocastEnter dt) (autocast_enter dt) ;;;
  a <- body ;;
  act (EAutocastExit dt) (autocast_exit dt) ;;;
  ret a.

(** [with torch.no_grad(): body] *)
Definition with_no_grad {A} (body : M A) : M A :=
  act ENoGradEnter no_grad_enter ;;;
  a <- body ;;
  act ENoGradExit no_grad_exit ;;;
  ret a.

(** [for x in xs: acc = body(acc, x)] *)
Fixpoint for_each {A S} (body : S -> A -> M S) (xs : list A) (acc : S)
  : M S :=
  match xs with
  | [] => ret acc
  | x :: xs' => acc' <- body acc x ;; for_each body xs' acc'
  end.

(** [pred = output.argmax(dim=1, keepdim=True)] followed by
    [pred.eq(target.view_as(pred)).sum().item()]. *)
Definition count_correct (output target : tensor) : pynum :=
  let pred := tensor_argmax output 1 true in
  tensor_item (tensor_sum (tensor_eq pred (tensor_view_as target pred))).

(** ** [train] and the closure [internal] *)

(** The body of the loop of [internal]; the accumulator is
    [(epoch_loss, correct)].  [scheduler] is a scheduler instance or
    [None]; an instance is truthy, so [if scheduler:] is the match on the
    option. *)
Definition internal_batch (model : Model) (optimizer : Optimizer)
           (criteria : Criteria) (dropout : bool) (device : string)
           (scaler : Scaler) (scheduler : option Scheduler)
           (acc : pynum * pynum) (batch : tensor * tensor)
  : M (pynum * pynum) :=
  let '(epoch_loss, correct) := acc in
  let '(data, target) := batch in
  data <- to_ data device ;;
  target <- to_ target device ;;
  act (EZeroGrad optimizer) (optimizer_zero_grad optimizer) ;;;
  ol <- with_autocast (Some float16)
          (output <- forward model data (Some dropout) ;;
           loss <- criterion criteria output target None ;;
           ret (output, loss)) ;;
  let '(output, loss) := ol in
  scaled <- scale scaler loss ;;
  act (EBackward scaled) (tensor_backward scaled) ;;;
  act (EScalerStep scaler optimizer) (scaler_step scaler optimizer) ;;;
  act (EScalerUpdate scaler) (scaler_update scaler) ;;;
  match scheduler with
  | Some s => act (ESchedulerStep s) (scheduler_step s)
  | None => ret tt
  end ;;;
  let correct := py_add correct (count_correct output target) in
  let epoch_loss := py_add epoch_loss (tensor_item loss) in
  ret (epoch_loss, correct).

(** The statements of [internal] up to its [return]. *)
Definition internal_loop (model : Model) (train_loader : loader)
           (optimizer : Optimizer) (criteria : Criteria) (dropout : bool)
           (device : string) (scaler : Scaler)
           (scheduler : option Scheduler) : M (pynum * pynum) :=
  act (EModelTrain model) (model_train model) ;;;
  for_each
    (internal_batch model optimizer criteria dropout device scaler scheduler)
    (batches train_loader) (PInt 0, PInt 0).

(** [return epoch_loss / len(train_loader),
           100.0 * correct / len(train_loader.dataset)] *)
Definition internal_return (train_loader : loader) (acc : pynum * pynum)
  : result (pynum * pynum) :=
  let '(epoch_loss, correct) := acc in
  bind_result
    (py_truediv epoch_loss (PInt (Z.of_nat (loader_len train_loader))))
    (fun avg =>
       bind_result
         (py_truediv (py_mul hundred correct)
                     (PInt (Z.of_nat (dataset_len train_loader))))
         (fun pct => Ok (avg, pct))).

Definition internal (model : Model) (train_loader : loader)
           (optimizer : Optimizer) (criteria : Criteria) (dropout : bool)
           (device : string) (scaler : Scaler)
           (scheduler : option Scheduler) : M (result (pynum * pynum)) :=
  acc <- internal_loop model train_loader optimizer criteria dropout device
                       scaler scheduler ;;
  ret (internal_return train_loader acc).

(** [train(use_l1, lambda_l1)] returns the closure. *)
Definition train (use_l1 : bool) (lambda_l1 : pyfloat) :=
  internal.

(** ** [test] *)

(** The body of the loop of [test]; the accumulator is
    [(test_loss, correct)]. *)
Definition test_batch (model : Model) (criteria : Criteria) (device : string)
           (acc : pynum * pynum) (batch : tensor * tensor)
  : M (pynum * pynum) :=
  let '(test_loss, correct) := acc in
  let '(data, target) := batch in
  data <- to_ data device ;;
  target <- to_ target device ;;
  ob <- with_autocast None
          (output <- forward model data None ;;
           loss <- criterion criteria output target (Some "sum"%string) ;;
           ret (output, tensor_item loss)) ;;
  let '(output, batch_loss) := ob in
  let test_loss := py_add test_loss batch_loss in
  let correct := py_add correct (count_correct output target) in
  ret (test_loss, correct).

(** The statements of [test] up to its [return]. *)
Definition test_loop (model : Model) (test_loader : loader)
           (criteria : Criteria) (device : string) : M (pynum * pynum) :=
  act (EModelEval model) (model_eval model) ;;;
  with_no_grad
    (for_each (test_batch model criteria device)
              (batches test_loader) (PInt 0, PInt 0)).

(** [return test_loss / len(test_loader.dataset),
           100.0 * correct / len(test_loader.dataset)] *)
Definition test_return (test_loader : loader) (acc : pynum * pynum)
  : result (pynum * pynum) :=
  let '(test_loss, correct) := acc in
  bind_result
    (py_truediv test_loss (PInt (Z.of_nat (dataset_len test_loader))))
    (fun avg =>
       bind_result
         (py_truediv (py_mul hundred correct)
                     (PInt (Z.of_nat (dataset_len test_loader))))
         (fun pct => Ok (avg, pct))).

Definition test (model : Model) (test_loader : loader)
           (criteria : Criteria) (device : string)
  : M (result (pynum * pynum)) :=
  acc <- test_loop model test_loader criteria device ;;
  ret (test_return test_loader acc).

(** The run of the loop of [internal], from the world it is entered
    in. *)
Definition internal_body_run (model : Model) (train_loader : loader)
           (optimizer : Optimizer) (criteria : Criteria) (dropout : bool)
           (device : string) (scaler : Scaler)
           (scheduler : option Scheduler) (w : world) :=
  for_each
    (internal_batch model optimizer criteria dropout device scaler scheduler)
    (batches train_loader) (PInt 0, PInt 0) (model_train model w).

(** The run of the loop of [test], from the world it is entered in. *)
Definition test_body_run (model : Model) (test_loader : loader)
           (criteria : Criteria) (device : string) (w : world) :=
  for_each (test_batch model criteria device) (batches test_loader)
           (PInt 0, PInt 0) (no_grad_enter (model_eval model w)).

(** Projections of a run. *)
Definition value_of {A} (r : A * world * list event) : A := fst (fst r).
Definition world_of {A} (r : A * world * list event) : world := snd (fst r).
Definition trace_of {A} (r : A * world * list event) : list event := snd r.

End Program.

(** ** Reading a list of calls *)

Section Traces.
Context {PF : PyFloat} {FW : Framework}.

(** The [with] regions open at some point of a run: the dtype arguments
    of the enclosing autocast regions, innermost first, and the number
    of enclosing no-grad regions. *)
Record ctx := {
  ac_stack : list (option dtype);
  ng_depth : nat
}.

Definition ctx0 : ctx := {| ac_stack := []; ng_depth := 0 |}.

Definition step_ctx (c : ctx) (e : event) : ctx :=
  match e with
  | EAutocastEnter dt =>
      {| ac_stack := dt :: ac_stack c; ng_depth := ng_depth c |}
  | EAutocastExit _ =>
      {| ac_stack := tl (ac_stack c); ng_depth := ng_depth c |}
  | ENoGradEnter =>
      {| ac_stack := ac_stack c; ng_depth := S (ng_depth c) |}
  | ENoGradExit =>
      {| ac_stack := ac_stack c; ng_depth := pred (ng_depth c) |}
  | _ => c
  end.

Definition run_ctx (c : ctx) (tr : list event) : ctx :=
  fold_left step_ctx tr c.

(** Every call paired with the regions it is made in. *)
Fixpoint annotate (c : ctx) (tr : list event) : list (ctx * event) :=
  match tr with
  | [] => []
  | e :: tr' => (c, e) :: annotate (step_ctx c e) tr'
  end.

(** A list of calls that closes every region it opens. *)
Definition balanced (tr : list event) : Prop :=
  forall c, run_ctx c tr = c.

(** *** Kinds of calls *)

Definition is_to (e : event) : bool :=
  match e with ETo _ _ _ => true | _ => false end.

Definition is_forward (e : event) : bool :=
  match e with EForward _ _ _ _ => true | _ => false end.

Definition is_criteria (e : event) : bool :=
  match e with ECriteria _ _ _ _ _ => true | _ => false end.

Definition is_backward (e : event) : bool :=
  match e with EBackward _ => true | _ => false end.

Definition is_scheduler_step (e : event) : bool :=
  match e with ESchedulerStep _ => true | _ => false end.

(** Backward pass, optimizer, scaler and scheduler calls. *)
Definition is_update (e : event) : bool :=
  match e with
  | EZeroGrad _ | EScale _ _ _ | EBackward _
  | EScalerStep _ _ | EScalerUpdate _ | ESchedulerStep _ => true
  | _ => false
  end.

Definition drop_scheduler_steps (tr : list event) : list event :=
  filter (fun e => negb (is_scheduler_step e)) tr.

Definition count_scheduler_steps (tr : list event) : nat :=
  List.length (filter is_scheduler_step tr).

(** *** Gradients left over *)

(** [zeroed] tells whether [zero_grad] has run since the last backward
    pass; the result tells whether every backward pass of [tr] starts
    from zeroed gradients. *)
Fixpoint backward_on_zeroed (zeroed : bool) (tr : list event) : bool :=
  match tr with
  | [] => true
  | EZeroGrad _ :: tr' => backward_on_zeroed true tr'
  | EBackward _ :: tr' => zeroed && backward_on_zeroed false tr'
  | _ :: tr' => backward_on_zeroed zeroed tr'
  end.

Fixpoint zeroed_after (zeroed : bool) (tr : list event) : bool :=
  match tr with
  | [] => zeroed
  | EZeroGrad _ :: tr' => zeroed_after true tr'
  | EBackward _ :: tr' => zeroed_after false tr'
  | _ :: tr' => zeroed_after zeroed tr'
  end.

(** *** The calls of one batch *)

Definition scheduler_events (scheduler : option Scheduler) : list event :=
  match scheduler with
  | Some s => [ESchedulerStep s]
  | None => []
  end.

(** The calls of one iteration of the training loop on batch
    [(data, target)], given the tensors the forward pass, the criterion
    and the scaler returned. *)
Definition train_calls (model : Model) (optimizer : Optimizer)
           (criteria : Criteria) (dropout : bool) (device : string)
           (scaler : Scaler) (scheduler : option Scheduler)
           (batch : tensor * tensor) (output loss scaled : tensor)
  : list event :=
  let data := tensor_to (fst batch) device in
  let target := tensor_to (snd batch) device in
  [ ETo (fst batch) device data;
    ETo (snd batch) device target;
    EZeroGrad optimizer;
    EAutocastEnter (Some float16);
    EForward model data (Some dropout) output;
    ECriteria criteria output target None loss;
    EAutocastExit (Some float16);
    EScale scaler loss scaled;
    EBackward scaled;
    EScalerStep scaler optimizer;
    EScalerUpdate scaler ] ++ scheduler_events scheduler.

Definition train_segment (model : Model) (optimizer : Optimizer)
           (criteria : Criteria) (dropout : bool) (device : string)
           (scaler : Scaler) (scheduler : option Scheduler)
           (batch : tensor * tensor) (seg : list event) : Prop :=
  exists output loss scaled,
    seg = train_calls model optimizer criteria dropout device scaler
                      scheduler batch output loss scaled.

(** The calls of one iteration of the evaluation loop. *)
Definition test_calls (model : Model) (criteria : Criteria)
           (device : string) (batch : tensor * tensor)
           (output loss : tensor) : list event :=
  let data := tensor_to (fst batch) device in
  let target := tensor_to (snd batch) device in
  [ ETo (fst batch) device data;
    ETo (snd batch) device target;
    EAutocastEnter None;
    EForward model data None output;
    ECriteria criteria output target (Some "sum"%string) loss;
    EAutocastExit None ].

Definition test_segment (model : Model) (criteria : Criteria)
           (device : string) (batch : tensor * tensor)
           (seg : list event) : Prop :=
  exists output loss,
    seg = test_calls model criteria device batch output loss.

(** *** Statistics, as Python computes them *)

(** [a + b] for an [int] or [float] accumulator [a] and an [int] or
    [float] summand [b], case by case: two ints add exactly, otherwise
    the int operand is converted and the floats are added. *)
Definition python_plus (a b : pynum) : pynum :=
  match a, b with
  | PInt m, PInt n => PInt (m + n)
  | PInt m, PFloat y => PFloat (fadd (float_of_int m) y)
  | PFloat x, PInt n => PFloat (fadd x (float_of_int n))
  | PFloat x, PFloat y => PFloat (fadd x y)
  end.

(** The value of [acc] after [acc += x] for every [x] of [xs], in
    order. *)
Fixpoint running_sum (acc : pynum) (xs : list pynum) : pynum :=
  match xs with
  | [] => acc
  | x :: xs' => running_sum (python_plus acc x) xs'
  end.

(** [100.0 * c / n] for a container length [n] that is not zero. *)
Definition percent_of (c : pynum) (n : nat) : pynum :=
  PFloat (fdiv (fmul (float_of_int 100)
                     match c with
                     | PInt k => float_of_int k
                     | PFloat x => x
                     end)
               (float_of_int (Z.of_nat n))).

(** [a / n] for a container length [n] that is not zero. *)
Definition over_len (a : pynum) (n : nat) : pynum :=
  match a with
  | PInt m => PFloat (int_truediv m (Z.of_nat n))
  | PFloat x => PFloat (fdiv x (float_of_int (Z.of_nat n)))
  end.

(** *** Forward invocations *)

(** A forward invocation: the callee, its arguments as written at the
    call, and the autocast regions around it. *)
Record invocation := {
  inv_model : Model;
  inv_data : tensor;
  inv_dropout : option bool;
  inv_autocast : list (option dtype)
}.

Definition forward_invocations_from (c : ctx) (tr : list event)
  : list invocation :=
  flat_map (fun ce => match snd ce with
                      | EForward m data dropout _ =>
                          [ {| inv_model := m; inv_data := data;
                               inv_dropout := dropout;
                               inv_autocast := ac_stack (fst ce) |} ]
                      | _ => []
                      end) (annotate c tr).

Definition forward_invocations (tr : list event) : list invocation :=
  forward_invocations_from ctx0 tr.

(** *** The loss on its way to the backward pass *)

(** The tensors the criterion returned, the tensors handed to
    [scaler.scale], the tensors it returned and the tensors [backward]
    was called on, each in call order. *)
Definition criterion_results (tr : list event) : list tensor :=
  flat_map (fun e => match e with
                     | ECriteria _ _ _ _ loss => [loss]
                     | _ => []
                     end) tr.

Definition scale_arguments (tr : list event) : list tensor :=
  flat_map (fun e => match e with
                     | EScale _ loss _ => [loss]
                     | _ => []
                     end) tr.

Definition scale_results (tr : list event) : list tensor :=
  flat_map (fun e => match e with
                     | EScale _ _ scaled => [scaled]
                     | _ => []
                     end) tr.

Definition backward_receivers (tr : list event) : list tensor :=
  flat_map (fun e => match e with
                     | EBackward t => [t]
                     | _ => []
                     end) tr.

(** *** Where a call may stand *)


(** In the evaluation loop: forward pass and criterion inside the
    no-grad region. *)
Definition no_grad_placement (ce : ctx * event) : Prop :=
  match snd ce with
  | EForward _ _ _ _ | ECriteria _ _ _ _ _ => ng_depth (fst ce) = 1%nat
  | _ => True
  end.

(** The criterion is asked for the sum over the batch. *)
Definition sums_over_batch (e : event) : Prop :=
  match e with
  | ECriteria _ _ _ r _ => r = Some "sum"%string
  | _ => True
  end.

(** *** Further kinds of calls and placements *)

Definition is_mode_switch (e : event) : bool :=
  match e with EModelTrain _ | EModelEval _ => true | _ => false end.





(** The criterion is called with no [reduction] argument. *)
Definition default_reduction (e : event) : Prop :=
  match e with
  | ECriteria _ _ _ r _ => r = None
  | _ => True
  end.

(** In the evaluation loop: forward pass and criterion inside exactly one
    autocast region, entered without dtype argument; device transfers
    outside every autocast region. *)
Definition test_autocast_placement (ce : ctx * event) : Prop :=
  match snd ce with
  | EForward _ _ _ _ | ECriteria _ _ _ _ _ => ac_stack (fst ce) = [None]
  | ETo _ _ _ => ac_stack (fst ce) = []
  | _ => True
  end.

(** A result that, when it is a pair, is a pair of floats. *)
Definition pair_of_floats (r : result (pynum * pynum)) : Prop :=
  match r with
  | Ok (PFloat _, PFloat _) => True
  | Ok _ => False
  | Raise _ => True
  end.

(** *** State that inference leaves alone *)

(** [obs] is a part of the framework state (the parameters of a model,
    the state of an optimizer) that the calls of the evaluation loop do
    not write. *)
Record inference_preserves {A} (obs : world -> A) : Prop := {
  ip_no_grad_enter : forall w, obs (no_grad_enter w) = obs w;
  ip_no_grad_exit : forall w, obs (no_grad_exit w) = obs w;
  ip_autocast_enter : forall w, obs (autocast_enter None w) = obs w;
  ip_autocast_exit : forall w, obs (autocast_exit None w) = obs w;
  ip_model_call : forall m data w,
      obs (snd (model_call m data None w)) = obs w;
  ip_criteria_call : forall c out target w,
      obs (snd (criteria_call c out target (Some "sum"%string) w)) = obs w
}.
End Traces.

(** ** A small framework

    One instance of the interface: scalar tensors, a model with a single
    weight, plain gradient descent behind a constant loss scale, and
    rationals for Python floats.  The concrete runs below are made on
    it. *)

Module Mini.

#[export] Instance QFloat : PyFloat := {|
  pyfloat := Q;
  float_of_int := inject_Z;
  fadd := Qplus;
  fmul := Qmult;
  fdiv := Qdiv;
  float_is_zero := fun q => (Qnum q =? 0);
  int_truediv := fun m n => Qdiv (inject_Z m) (inject_Z n)
|}.

(** A scalar: a count or a real. *)
Inductive scalar :=
| Count (n : Z)
| Real (q : Q).

Definition real_of (t : scalar) : Q :=
  match t with
  | Count n => inject_Z n
  | Real q => q
  end.

Record state := {
  weight : Q;
  grad : Q;
  lr : Q;
  loss_scale : Q;
  training : bool;
  autocast_regions : list (option dtype);
  no_grad_regions : nat
}.

Definition set_weight (q : Q) (w : state) : state :=
  {| weight := q; grad := grad w; lr := lr w; loss_scale := loss_scale w;
     training := training w; autocast_regions := autocast_regions w;
     no_grad_regions := no_grad_regions w |}.

Definition set_grad (q : Q) (w : state) : state :=
  {| weight := weight w; grad := q; lr := lr w; loss_scale := loss_scale w;
     training := training w; autocast_regions := autocast_regions w;
     no_grad_regions := no_grad_regions w |}.

Definition set_lr (q : Q) (w : state) : state :=
  {| weight := weight w; grad := grad w; lr := q; loss_scale := loss_scale w;
     training := training w; autocast_regions := autocast_regions w;
     no_grad_regions := no_grad_regions w |}.

Definition set_training (b : bool) (w : state) : state :=
  {| weight := weight w; grad := grad w; lr := lr w;
     loss_scale := loss_scale w; training := b;
     autocast_regions := autocast_regions w;
     no_grad_regions := no_grad_regions w |}.

Definition set_autocast (l : list (option dtype)) (w : state) : state :=
  {| weight := weight w; grad := grad w; lr := lr w;
     loss_scale := loss_scale w; training := training w;
     autocast_regions := l; no_grad_regions := no_grad_regions w |}.

Definition set_no_grad (n : nat) (w : state) : state :=
  {| weight := weight w; grad := grad w; lr := lr w;
     loss_scale := loss_scale w; training := training w;
     autocast_regions := autocast_regions w; no_grad_regions := n |}.

#[export] Instance framework : Framework := {|
  tensor := scalar;
  world := state;
  Model := unit;
  Optimizer := unit;
  Criteria := unit;
  Scaler := unit;
  Scheduler := unit;
  model_train := fun _ => set_training true;
  model_eval := fun _ => set_training false;
  tensor_to := fun t _ => t;
  optimizer_zero_grad := fun _ => set_grad 0%Q;
  autocast_enter := fun dt w => set_autocast (dt :: autocast_regions w) w;
  autocast_exit := fun _ w => set_autocast (tl (autocast_regions w)) w;
  no_grad_enter := fun w => set_no_grad (S (no_grad_regions w)) w;
  no_grad_exit := fun w => set_no_grad (pred (no_grad_regions w)) w;
  model_call := fun _ data _ w => (Real (Qmult (weight w) (real_of data)), w);
  criteria_call := fun _ out target _ w =>
    (Real (Qmult (Qminus (real_of out) (real_of target))
                 (Qminus (real_of out) (real_of target))), w);
  scaler_scale := fun _ loss w =>
    (Real (Qmult (loss_scale w) (real_of loss)), w);
  tensor_backward := fun t w => set_grad (Qplus (grad w) (real_of t)) w;
  scaler_step := fun _ _ w =>
    set_weight (Qminus (weight w)
                       (Qmult (lr w) (Qdiv (grad w) (loss_scale w)))) w;
  scaler_update := fun _ w => w;
  scheduler_step := fun _ w => set_lr (Qdiv (lr w) (inject_Z 2)) w;
  tensor_argmax := fun t _ _ => t;
  tensor_view_as := fun t _ => t;
  tensor_eq := fun a b =>
    Count (if Qeq_bool (real_of a) (real_of b) then 1 else 0);
  tensor_sum := fun t => t;
  tensor_item := fun t =>
    match t with
    | Count n => PInt n
    | Real q => PFloat q
    end
|}.

Definition w0 : state := {|
  weight := 1%Q; grad := 5%Q; lr := 1%Q; loss_scale := 2%Q;
  training := false; autocast_regions := []; no_grad_regions := 0
|}.

(** What training writes: the weight, its gradient, and the state of
    the optimizer and of the scaler. *)
Definition trained_state (w : state) : Q * Q * Q * Q :=
  (weight w, grad w, lr w, loss_scale w).

Definition batch1 : scalar * scalar := (Real 2%Q, Real 2%Q).
Definition batch2 : scalar * scalar := (Real 3%Q, Real 1%Q).

(** Two batches of one example each. *)
Definition two_batches : loader :=
  {| batches := [batch1; batch2]; dataset_len := 2 |}.

Definition one_batch : loader :=
  {| batches := [batch1]; dataset_len := 1 |}.

(** No batch, no example. *)
Definition empty_loader : loader :=
  {| batches := []; dataset_len := 0 |}.

(** A loader that drops its only, incomplete batch: one example, no
    batch. *)
Definition dropped_last : loader :=
  {| batches := []; dataset_len := 1 |}.

End Mini.

(** ** Runs of the two loops *)

Ltac run_monad :=
  unfold internal, internal_loop, internal_batch, test, test_loop, test_batch,
    with_autocast, with_no_grad, to_, forward, criterion, scale, call, act,
    bind, ret, value_of, world_of, trace_of;
  simpl.

Ltac destruct_calls :=
  repeat match goal with
         | |- context [model_call ?m ?d ?o ?w] =>
             destruct (model_call m d o w) as [? ?]; simpl
         | |- context [criteria_call ?c ?o ?t ?r ?w] =>
             destruct (criteria_call c o t r w) as [? ?]; simpl
         | |- context [scaler_scale ?s ?l ?w] =>
             destruct (scaler_scale s l w) as [? ?]; simpl
         end.

Section Runs.
Context {PF : PyFloat} {FW : Framework}.

Lemma bind_run {A B} (c : M A) (k : A -> M B) (w : world) :
  bind c k w =
  (value_of (k (value_of (c w)) (world_of (c w))),
   world_of (k (value_of (c w)) (world_of (c w))),
   trace_of (c w) ++ trace_of (k (value_of (c w)) (world_of (c w)))).
Proof.
  unfold bind, value_of, world_of, trace_of.
  destruct (c w) as [[a w1] t1]; simpl.
  destruct (k a w1) as [[b w2] t2]; reflexivity.
Qed.

(** The calls of a loop are the calls of its iterations, one after the
    other. *)
Lemma for_each_segments {A S} (body : S -> A -> M S)
      (P : A -> list event -> Prop) :
  (forall acc x w, P x (trace_of (body acc x w))) ->
  forall xs acc w,
  exists segs,
    trace_of (for_each body xs acc w) = concat segs /\ Forall2 P xs segs.
Proof.
  intros HP xs; induction xs as [|x xs IH]; intros acc w; simpl.
  - exists []; split; [reflexivity | constructor].
  - rewrite bind_run; unfold trace_of at 1; simpl.
    destruct (IH (value_of (body acc x w)) (world_of (body acc x w)))
      as [segs [Htr Hall]].
    exists (trace_of (body acc x w) :: segs); split.
    + simpl; now rewrite Htr.
    + constructor; [apply HP | exact Hall].
Qed.

(** One iteration of the training loop. *)
Lemma internal_batch_run model optimizer criteria dropout device scaler
      scheduler epoch_loss correct batch w :
  exists output loss scaled w',
    internal_batch model optimizer criteria dropout device scaler scheduler
                   (epoch_loss, correct) batch w
    = ((py_add epoch_loss (tensor_item loss),
        py_add correct (count_correct output (tensor_to (snd batch) device))),
       w',
       train_calls model optimizer criteria dropout device scaler scheduler
                   batch output loss scaled).
Proof.
  destruct batch as [data target]; run_monad; destruct_calls.
  destruct scheduler as [s|]; simpl; do 4 eexists; reflexivity.
Qed.

Lemma internal_batch_segment model optimizer criteria dropout device scaler
      scheduler acc batch w :
  train_segment model optimizer criteria dropout device scaler scheduler
    batch
    (trace_of (internal_batch model optimizer criteria dropout device
                              scaler scheduler acc batch w)).
Proof.
  destruct acc as [epoch_loss correct].
  destruct (internal_batch_run model optimizer criteria dropout device
              scaler scheduler epoch_loss correct batch w)
    as (output & loss & scaled & w' & Hrun).
  rewrite Hrun; exists output, loss, scaled; reflexivity.
Qed.

(** [internal] in terms of the run of its loop. *)
Lemma internal_run model train_loader optimizer criteria dropout device
      scaler scheduler w :
  internal model train_loader optimizer criteria dropout device scaler
           scheduler w
  = (internal_return train_loader
       (value_of (internal_body_run model train_loader optimizer criteria
                                    dropout device scaler scheduler w)),
     world_of (internal_body_run model train_loader optimizer criteria
                                 dropout device scaler scheduler w),
     EModelTrain model ::
       trace_of (internal_body_run model train_loader optimizer criteria
                                   dropout device scaler scheduler w)).
Proof.
  unfold internal_body_run, internal, internal_loop, act, bind, ret,
    value_of, world_of, trace_of; simpl.
  destruct (for_each _ (batches train_loader) (PInt 0, PInt 0)
                     (model_train model w))
    as [[acc w1] tr]; simpl.
  now rewrite !app_nil_r.
Qed.

(** The calls of [internal]: [model.train()], then the calls of each
    batch. *)
Lemma internal_trace model train_loader optimizer criteria dropout device
      scaler scheduler w :
  exists segs,
    trace_of (internal model train_loader optimizer criteria dropout device
                       scaler scheduler w)
    = EModelTrain model :: concat segs
    /\ Forall2 (train_segment model optimizer criteria dropout device scaler
                              scheduler)
               (batches train_loader) segs.
Proof.
  destruct (for_each_segments
              (internal_batch model optimizer criteria dropout device scaler
                              scheduler)
              (train_segment model optimizer criteria dropout device scaler
                             scheduler)
              (fun acc x w => internal_batch_segment model optimizer criteria
                                dropout device scaler scheduler acc x w)
              (batches train_loader) (PInt 0, PInt 0)
              (model_train model w))
    as [segs [Htr Hall]].
  exists segs; split; [|exact Hall].
  rewrite internal_run; unfold trace_of at 1; simpl.
  unfold internal_body_run; now rewrite Htr.
Qed.

(** One iteration of the evaluation loop. *)
Lemma test_batch_run model criteria device test_loss correct batch w :
  exists output loss w',
    test_batch model criteria device (test_loss, correct) batch w
    = ((py_add test_loss (tensor_item loss),
        py_add correct (count_correct output (tensor_to (snd batch) device))),
       w',
       test_calls model criteria device batch output loss).
Proof.
  destruct batch as [data target]; run_monad; destruct_calls.
  do 3 eexists; reflexivity.
Qed.

Lemma test_batch_segment model criteria device acc batch w :
  test_segment model criteria device batch
    (trace_of (test_batch model criteria device acc batch w)).
Proof.
  destruct acc as [test_loss correct].
  destruct (test_batch_run model criteria device test_loss correct batch w)
    as (output & loss & w' & Hrun).
  rewrite Hrun; exists output, loss; reflexivity.
Qed.

(** [test] in terms of the run of its loop. *)
Lemma test_run model test_loader criteria device w :
  test model test_loader criteria device w
  = (test_return test_loader
       (value_of (test_body_run model test_loader criteria device w)),
     no_grad_exit
       (world_of (test_body_run model test_loader criteria device w)),
     EModelEval model :: ENoGradEnter ::
       trace_of (test_body_run model test_loader criteria device w)
       ++ [ENoGradExit]).
Proof.
  unfold test_body_run, test, test_loop, with_no_grad, act, bind, ret,
    value_of, world_of, trace_of; simpl.
  destruct (for_each (test_batch model criteria device) (batches test_loader)
                     (PInt 0, PInt 0) (no_grad_enter (model_eval model w)))
    as [[acc w1] tr]; simpl.
  now rewrite !app_nil_r.
Qed.

(** The calls of [test]: [model.eval()], then, inside the no-grad
    region, the calls of each batch. *)
Lemma test_trace model test_loader criteria device w :
  exists segs,
    trace_of (test model test_loader criteria device w)
    = EModelEval model :: ENoGradEnter :: concat segs ++ [ENoGradExit]
    /\ Forall2 (test_segment model criteria device)
               (batches test_loader) segs.
Proof.
  destruct (for_each_segments
              (test_batch model criteria device)
              (test_segment model criteria device)
              (fun acc x w => test_batch_segment model criteria device acc x w)
              (batches test_loader) (PInt 0, PInt 0)
              (no_grad_enter (model_eval model w)))
    as [segs [Htr Hall]].
  exists segs; split; [|exact Hall].
  rewrite test_run; unfold trace_of at 1; simpl.
  unfold test_body_run; now rewrite Htr.
Qed.
End Runs.

(** ** Lists of calls, piecewise *)

Section Pieces.
Context {PF : PyFloat} {FW : Framework}.

Lemma flat_map_concat {A B} (f : A -> list B) (ls : list (list A)) :
  flat_map f (concat ls) = flat_map (flat_map f) ls.
Proof.
  induction ls as [|l ls IH]; simpl; [reflexivity|].
  now rewrite flat_map_app, IH.
Qed.

Lemma flat_map_pieces {A B C} (f : list B -> list C) (g : A -> list C)
      (xs : list A) (segs : list (list B)) :
  Forall2 (fun x seg => f seg = g x) xs segs ->
  flat_map f segs = flat_map g xs.
Proof.
  induction 1 as [|x seg xs segs Hx _ IH]; simpl; [reflexivity|].
  now rewrite Hx, IH.
Qed.

Lemma flat_map_single {A B} (f : A -> B) (xs : list A) :
  flat_map (fun x => [f x]) xs = map f xs.
Proof. induction xs as [|x xs IH]; simpl; congruence. Qed.

Lemma Forall2_weaken {A B} (P Q : A -> B -> Prop) xs ys :
  (forall x y, P x y -> Q x y) -> Forall2 P xs ys -> Forall2 Q xs ys.
Proof. intros HPQ; induction 1; constructor; auto. Qed.

Lemma Forall2_right {A B} (P : A -> B -> Prop) (Q : B -> Prop) xs ys :
  (forall x y, P x y -> Q y) -> Forall2 P xs ys -> Forall Q ys.
Proof. intros HPQ; induction 1; constructor; eauto. Qed.

Lemma filter_concat {A} (p : A -> bool) (ls : list (list A)) :
  filter p (concat ls) = concat (map (filter p) ls).
Proof.
  induction ls as [|l ls IH]; simpl; [reflexivity|].
  now rewrite filter_app, IH.
Qed.

Lemma run_ctx_app c t1 t2 :
  run_ctx c (t1 ++ t2) = run_ctx (run_ctx c t1) t2.
Proof. apply fold_left_app. Qed.

Lemma annotate_app c t1 t2 :
  annotate c (t1 ++ t2) = annotate c t1 ++ annotate (run_ctx c t1) t2.
Proof.
  revert c; induction t1 as [|e t1 IH]; intros c; simpl; [reflexivity|].
  now rewrite IH.
Qed.

Lemma balanced_concat segs :
  Forall balanced segs -> balanced (concat segs).
Proof.
  induction 1 as [|seg segs Hseg _ IH]; intros c; simpl; [reflexivity|].
  now rewrite run_ctx_app, Hseg, IH.
Qed.

Lemma train_segment_balanced model optimizer criteria dropout device scaler
      scheduler batch seg :
  train_segment model optimizer criteria dropout device scaler scheduler
                batch seg ->
  balanced seg.
Proof.
  intros (output & loss & scaled & ->) [ac ng].
  destruct scheduler; reflexivity.
Qed.

Lemma test_segment_balanced model criteria device batch seg :
  test_segment model criteria device batch seg -> balanced seg.
Proof. intros (output & loss & ->) [ac ng]; reflexivity. Qed.

Lemma backward_on_zeroed_app z t1 t2 :
  backward_on_zeroed z (t1 ++ t2)
  = backward_on_zeroed z t1 && backward_on_zeroed (zeroed_after z t1) t2.
Proof.
  revert z; induction t1 as [|e t1 IH]; intros z; simpl; [reflexivity|].
  destruct e; rewrite ?IH; try reflexivity.
  now rewrite andb_assoc.
Qed.

Lemma backward_on_zeroed_concat segs :
  Forall (fun seg => forall z, backward_on_zeroed z seg = true) segs ->
  forall z, backward_on_zeroed z (concat segs) = true.
Proof.
  induction 1 as [|seg segs Hseg _ IH]; intros z; simpl; [reflexivity|].
  now rewrite backward_on_zeroed_app, Hseg, IH.
Qed.

Lemma Forall_annotate_concat (P : ctx * event -> Prop) c segs :
  Forall (fun seg => balanced seg /\ Forall P (annotate c seg)) segs ->
  Forall P (annotate c (concat segs)).
Proof.
  induction 1 as [|seg segs [Hbal Hseg] _ IH]; simpl; [constructor|].
  rewrite annotate_app, Hbal.
  apply Forall_app; split; assumption.
Qed.

Lemma forward_invocations_app c t1 t2 :
  forward_invocations_from c (t1 ++ t2)
  = forward_invocations_from c t1
    ++ forward_invocations_from (run_ctx c t1) t2.
Proof.
  unfold forward_invocations_from.
  now rewrite annotate_app, flat_map_app.
Qed.

Lemma forward_invocations_concat c segs :
  Forall balanced segs ->
  forward_invocations_from c (concat segs)
  = flat_map (forward_invocations_from c) segs.
Proof.
  induction 1 as [|seg segs Hseg _ IH]; simpl; [reflexivity|].
  rewrite <- IH; unfold forward_invocations_from.
  now rewrite annotate_app, flat_map_app, Hseg.
Qed.
End Pieces.

(** ** The training closure *)

Section Training.
Context {PF : PyFloat} {FW : Framework}.

(** C1.  The calls of the function returned by [train] are
    [model.train()] followed by one group of calls per batch of
    [train_loader], in the order the loader yields them; the group of
    batch [(data, target)] is, in this order: [data.to(device)],
    [target.to(device)], [optimizer.zero_grad()], the forward pass and
    the criterion (inside the autocast region), [scaler.scale(loss)]
    on the loss the criterion returned, [backward()] on the scaled
    loss, [scaler.step(optimizer)], [scaler.update()], and then the
    scheduler step if there is a scheduler. *)
Theorem train_batch_call_order use_l1 lambda_l1 model train_loader optimizer
        criteria dropout device scaler scheduler w :
  exists segs,
    trace_of (train use_l1 lambda_l1 model train_loader optimizer criteria
                    dropout device scaler scheduler w)
    = EModelTrain model :: concat segs
    /\ Forall2
         (fun batch seg =>
            exists output loss scaled,
              seg =
              [ ETo (fst batch) device (tensor_to (fst batch) device);
                ETo (snd batch) device (tensor_to (snd batch) device);
                EZeroGrad optimizer;
                EAutocastEnter (Some float16);
                EForward model (tensor_to (fst batch) device) (Some dropout)
                         output;
                ECriteria criteria output (tensor_to (snd batch) device)
                          None loss;
                EAutocastExit (Some float16);
                EScale scaler loss scaled;
                EBackward scaled;
                EScalerStep scaler optimizer;
                EScalerUpdate scaler ]
              ++ scheduler_events scheduler)
         (batches train_loader) segs.
Proof.
  unfold train.
  destruct (internal_trace model train_loader optimizer criteria dropout
              device scaler scheduler w) as [segs [Htr Hall]].
  exists segs; split; [exact Htr|].
  eapply Forall2_weaken; [|exact Hall].
  intros batch seg (output & loss & scaled & ->).
  exists output, loss, scaled; reflexivity.
Qed.

(** C9.  In every iteration of the training loop
    [optimizer.zero_grad()] is called before the backward pass of that
    iteration, with only the two device transfers before it; so,
    whatever gradients the caller left behind, every backward pass of
    the run starts from gradients zeroed since the previous backward
    pass. *)
Theorem zero_grad_before_every_backward use_l1 lambda_l1 model train_loader
        optimizer criteria dropout device scaler scheduler w zeroed :
  backward_on_zeroed zeroed
    (trace_of (train use_l1 lambda_l1 model train_loader optimizer criteria
                     dropout device scaler scheduler w)) = true
  /\ exists segs,
      trace_of (train use_l1 lambda_l1 model train_loader optimizer criteria
                      dropout device scaler scheduler w)
      = EModelTrain model :: concat segs
      /\ Forall2
           (fun (batch : tensor * tensor) seg =>
              exists t1 t2 rest,
                seg = t1 :: t2 :: EZeroGrad optimizer :: rest
                /\ is_to t1 = true /\ is_to t2 = true
                /\ List.length (filter is_backward rest) = 1%nat)
           (batches train_loader) segs.
Proof.
  unfold train.
  destruct (internal_trace model train_loader optimizer criteria dropout
              device scaler scheduler w) as [segs [Htr Hall]].
  split.
  - rewrite Htr; simpl.
    apply backward_on_zeroed_concat.
    eapply Forall2_right; [|exact Hall].
    intros batch seg (output & loss & scaled & ->) z.
    destruct scheduler; reflexivity.
  - exists segs; split; [exact Htr|].
    eapply Forall2_weaken; [|exact Hall].
    intros batch seg (output & loss & scaled & ->).
    do 3 eexists; split; [reflexivity|].
    destruct scheduler; repeat split; reflexivity.
Qed.

(** C5.  With a scheduler [s], the scheduler steps of a run of the
    training function are one [s.step()] per batch; without one there
    are none.  Seen from the same state and accumulators, an iteration
    with the scheduler returns the same statistics as the iteration
    without it, makes the same calls followed by [s.step()], and ends
    in the world the other ends in, stepped by [s].  And the calls of a
    whole run, scheduler steps left out, are per batch the calls that a
    run without scheduler makes. *)
Theorem scheduler_stepped_once_per_batch model train_loader optimizer
        criteria dropout device scaler scheduler w :
  filter is_scheduler_step
    (trace_of (internal model train_loader optimizer criteria dropout device
                        scaler scheduler w))
  = flat_map (fun _ => scheduler_events scheduler) (batches train_loader)
  /\ count_scheduler_steps
       (trace_of (internal model train_loader optimizer criteria dropout
                           device scaler scheduler w))
     = match scheduler with
       | Some _ => loader_len train_loader
       | None => 0%nat
       end
  /\ (forall s acc batch w1,
        internal_batch model optimizer criteria dropout device scaler
                       (Some s) acc batch w1
        = (value_of (internal_batch model optimizer criteria dropout device
                                    scaler None acc batch w1),
           scheduler_step s
             (world_of (internal_batch model optimizer criteria dropout
                                       device scaler None acc batch w1)),
           trace_of (internal_batch model optimizer criteria dropout device
                                    scaler None acc batch w1)
           ++ [ESchedulerStep s]))
  /\ exists segs,
      drop_scheduler_steps
        (trace_of (internal model train_loader optimizer criteria dropout
                            device scaler scheduler w))
      = EModelTrain model :: concat segs
      /\ Forall2 (train_segment model optimizer criteria dropout device
                                scaler None)
                 (batches train_loader) segs.
Proof.
  destruct (internal_trace model train_loader optimizer criteria dropout
              device scaler scheduler w) as [segs [Htr Hall]].
  assert (Hsteps :
            filter is_scheduler_step
              (trace_of (internal model train_loader optimizer criteria
                                  dropout device scaler scheduler w))
            = flat_map (fun _ => scheduler_events scheduler)
                       (batches train_loader)).
  { rewrite Htr; simpl.
    rewrite filter_concat, <- flat_map_concat_map.
    apply flat_map_pieces.
    eapply Forall2_weaken; [|exact Hall].
    intros batch seg (output & loss & scaled & ->).
    destruct scheduler; reflexivity. }
  split; [exact Hsteps|]. split; [|split].
  - unfold count_scheduler_steps, loader_len; rewrite Hsteps.
    clear; destruct scheduler as [s|];
      induction (batches train_loader) as [|b l IH]; simpl;
      [reflexivity | now f_equal | reflexivity | exact IH].
  - intros s [epoch_loss correct] [data target] w1.
    run_monad; destruct_calls.
    reflexivity.
  - exists (map drop_scheduler_steps segs); split.
    + rewrite Htr; unfold drop_scheduler_steps at 1; simpl.
      now rewrite filter_concat.
    + clear Htr Hsteps; induction Hall as [|b seg l segs Hseg _ IH]; simpl;
        constructor; [|exact IH].
      destruct Hseg as (output & loss & scaled & ->).
      exists output, loss, scaled.
      destruct scheduler; reflexivity.
Qed.


(** C8.  [use_l1] and [lambda_l1] are not used: whatever their values,
    [train] returns the same function.  In a run of that function the
    tensors handed to [scaler.scale] are exactly the tensors the
    criterion returned, and the backward passes run on exactly the
    tensors [scaler.scale] returned: nothing is added to the loss. *)
Theorem l1_arguments_unused use_l1 lambda_l1 use_l1' lambda_l1' :
  train use_l1 lambda_l1 = train use_l1' lambda_l1'
  /\ forall model train_loader optimizer criteria dropout device scaler
            scheduler w,
      scale_arguments
        (trace_of (train use_l1 lambda_l1 model train_loader optimizer
                         criteria dropout device scaler scheduler w))
      = criterion_results
          (trace_of (train use_l1 lambda_l1 model train_loader optimizer
                           criteria dropout device scaler scheduler w))
      /\ backward_receivers
           (trace_of (train use_l1 lambda_l1 model train_loader optimizer
                            criteria dropout device scaler scheduler w))
         = scale_results
             (trace_of (train use_l1 lambda_l1 model train_loader optimizer
                              criteria dropout device scaler scheduler w)).
Proof.
  split; [reflexivity|].
  intros model train_loader optimizer criteria dropout device scaler
         scheduler w.
  unfold train.
  destruct (internal_trace model train_loader optimizer criteria dropout
              device scaler scheduler w) as [segs [Htr Hall]].
  rewrite Htr; clear Htr.
  unfold scale_arguments, criterion_results, backward_receivers,
    scale_results; simpl.
  rewrite !flat_map_concat.
  induction Hall as [|b seg l segs Hseg _ IH]; simpl; [split; reflexivity|].
  destruct IH as [IH1 IH2]; rewrite IH1, IH2.
  destruct Hseg as (output & loss & scaled & ->).
  destruct scheduler; split; reflexivity.
Qed.
End Training.

(** ** The evaluation routine *)

Section Evaluation.
Context {PF : PyFloat} {FW : Framework}.

Lemma python_plus_add a b : python_plus a b = py_add a b.
Proof. destruct a, b; reflexivity. Qed.

Lemma running_sum_cons acc x xs :
  running_sum acc (x :: xs) = running_sum (py_add acc x) xs.
Proof. simpl; now rewrite python_plus_add. Qed.

Lemma percent_of_len c n : over_len (py_mul hundred c) n = percent_of c n.
Proof. destruct c; reflexivity. Qed.

(** The evaluation loop, batch by batch: the tensors the forward pass
    and the criterion returned for each batch, the calls made, and the
    accumulators at the end. *)
Lemma test_loop_outcome model criteria device xs test_loss correct w :
  exists ols : list (tensor * tensor),
    List.length ols = List.length xs
    /\ trace_of (for_each (test_batch model criteria device) xs
                          (test_loss, correct) w)
       = flat_map
           (fun bo : (tensor * tensor) * (tensor * tensor) =>
              test_calls model criteria device (fst bo)
                         (fst (snd bo)) (snd (snd bo)))
           (combine xs ols)
    /\ value_of (for_each (test_batch model criteria device) xs
                          (test_loss, correct) w)
       = (running_sum test_loss
            (map (fun ol : tensor * tensor => tensor_item (snd ol)) ols),
          running_sum correct
            (map (fun bo : (tensor * tensor) * (tensor * tensor) =>
                    count_correct (fst (snd bo))
                                  (tensor_to (snd (fst bo)) device))
                 (combine xs ols))).
Proof.
  revert test_loss correct w.
  induction xs as [|batch xs IH]; intros test_loss correct w.
  - exists []; repeat split.
  - cbn [for_each]; rewrite bind_run.
    destruct (test_batch_run model criteria device test_loss correct batch w)
      as (output & loss & w' & ->).
    unfold value_of, world_of, trace_of in *; cbn [fst snd].
    destruct (IH (py_add test_loss (tensor_item loss))
                 (py_add correct
                         (count_correct output
                                        (tensor_to (snd batch) device)))
                 w')
      as (ols & Hlen & Htr & Hval).
    exists ((output, loss) :: ols); split; [|split].
    + simpl; now rewrite Hlen.
    + rewrite Htr; reflexivity.
    + rewrite Hval; cbn [combine map fst snd].
      now rewrite !running_sum_cons.
Qed.

Lemma test_loop_run model test_loader criteria device w :
  value_of (test_loop model test_loader criteria device w)
  = value_of (test_body_run model test_loader criteria device w)
  /\ trace_of (test_loop model test_loader criteria device w)
     = trace_of (test model test_loader criteria device w).
Proof.
  rewrite test_run.
  unfold test_body_run, test_loop, with_no_grad, act, bind, ret,
    value_of, world_of, trace_of; simpl.
  destruct (for_each (test_batch model criteria device) (batches test_loader)
                     (PInt 0, PInt 0) (no_grad_enter (model_eval model w)))
    as [[acc w1] tr]; simpl.
  split; reflexivity.
Qed.

Lemma py_truediv_len a n :
  py_truediv a (PInt (Z.of_nat n))
  = if (n =? 0)%nat then Raise ZeroDivisionError else Ok (over_len a n).
Proof.
  unfold py_truediv; destruct n as [|n]; [reflexivity|].
  change (py_is_zero (PInt (Z.of_nat (S n)))) with (Z.of_nat (S n) =? 0).
  replace (Z.of_nat (S n) =? 0) with false
    by (symmetry; apply Z.eqb_neq; lia).
  destruct a; reflexivity.
Qed.

(** C2.  [test] calls the forward pass and the criterion of every batch
    inside its [torch.no_grad()] region, once per batch.  Its calls are
    [model.eval()], the entry into the no-grad region, then for every
    batch [(data, target)] of [test_loader], in order, the two device
    transfers, the forward pass on the moved data and the criterion on
    its output and the moved target with [reduction="sum"], both inside
    [autocast()], and at last the exit from the no-grad region.  When
    the loop ends, [test_loss] is what [+=] made of 0 and the [.item()]
    of the losses the criterion returned, batch after batch, and
    [correct] what [+=] made of 0 and, batch after batch, the [.item()]
    of the sum of [pred.eq(target.view_as(pred))], where [pred] is the
    argmax along dimension 1, dimension kept, of that batch's output. *)
Theorem test_accumulates_under_no_grad model test_loader criteria device w :
  Forall no_grad_placement
         (annotate ctx0
            (trace_of (test model test_loader criteria device w)))
  /\ List.length
       (filter is_forward
          (trace_of (test model test_loader criteria device w)))
     = loader_len test_loader
  /\ List.length
       (filter is_criteria
          (trace_of (test model test_loader criteria device w)))
     = loader_len test_loader
  /\ exists ols : list (tensor * tensor),
      List.length ols = loader_len test_loader
      /\ trace_of (test model test_loader criteria device w)
         = EModelEval model :: ENoGradEnter ::
             flat_map
               (fun bo : (tensor * tensor) * (tensor * tensor) =>
                  [ ETo (fst (fst bo)) device
                        (tensor_to (fst (fst bo)) device);
                    ETo (snd (fst bo)) device
                        (tensor_to (snd (fst bo)) device);
                    EAutocastEnter None;
                    EForward model (tensor_to (fst (fst bo)) device) None
                             (fst (snd bo));
                    ECriteria criteria (fst (snd bo))
                              (tensor_to (snd (fst bo)) device)
                              (Some "sum"%string) (snd (snd bo));
                    EAutocastExit None ])
               (combine (batches test_loader) ols)
             ++ [ENoGradExit]
      /\ value_of (test_loop model test_loader criteria device w)
         = (running_sum (PInt 0)
              (map (fun ol : tensor * tensor => tensor_item (snd ol)) ols),
            running_sum (PInt 0)
              (map (fun bo : (tensor * tensor) * (tensor * tensor) =>
                      tensor_item
                        (tensor_sum
                           (tensor_eq
                              (tensor_argmax (fst (snd bo)) 1 true)
                              (tensor_view_as
                                 (tensor_to (snd (fst bo)) device)
                                 (tensor_argmax (fst (snd bo)) 1 true)))))
                   (combine (batches test_loader) ols))).
Proof.
  split; [|split; [|split]].
  - destruct (test_trace model test_loader criteria device w)
      as [segs [Htr Hall]].
    rewrite Htr; clear Htr; simpl.
    constructor; [exact I|]. constructor; [exact I|].
    rewrite annotate_app; apply Forall_app; split.
    + apply Forall_annotate_concat.
      eapply Forall2_right; [|exact Hall].
      intros batch seg Hseg; split.
      * eapply test_segment_balanced; exact Hseg.
      * destruct Hseg as (output & loss & ->).
        simpl; repeat constructor.
    + simpl; repeat constructor.
  - destruct (test_trace model test_loader criteria device w)
      as [segs [Htr Hall]].
    rewrite Htr; clear Htr; simpl.
    rewrite filter_app, length_app, filter_concat; simpl.
    rewrite Nat.add_0_r; unfold loader_len.
    induction Hall as [|b seg l segs Hseg _ IH]; simpl; [reflexivity|].
    rewrite length_app, IH.
    destruct Hseg as (output & loss & ->); reflexivity.
  - destruct (test_trace model test_loader criteria device w)
      as [segs [Htr Hall]].
    rewrite Htr; clear Htr; simpl.
    rewrite filter_app, length_app, filter_concat; simpl.
    rewrite Nat.add_0_r; unfold loader_len.
    induction Hall as [|b seg l segs Hseg _ IH]; simpl; [reflexivity|].
    rewrite length_app, IH.
    destruct Hseg as (output & loss & ->); reflexivity.
  - destruct (test_loop_outcome model criteria device (batches test_loader)
                (PInt 0) (PInt 0) (no_grad_enter (model_eval model w)))
      as (ols & Hlen & Htr & Hval).
    exists ols; split; [exact Hlen|split].
    + rewrite test_run; unfold trace_of at 1; cbn [snd].
      unfold test_body_run; rewrite Htr; reflexivity.
    + destruct (test_loop_run model test_loader criteria device w) as [-> _].
      exact Hval.
Qed.

(** C4.  When [test_loader.dataset] has at least one example, [test]
    returns the pair of the summed loss divided by the number of
    examples of [test_loader.dataset] and of 100.0 times the number of
    correct predictions divided by that number of examples.  The summed
    loss adds up, over the batches of [test_loader] in order, the
    [.item()] of the loss of a criterion called with [reduction="sum"]
    on the model's output for the batch and the batch's target; the
    number of correct predictions adds up, over the batches, the
    [.item()] of the sum of [pred.eq(target.view_as(pred))], [pred]
    being the argmax along dimension 1, dimension kept, of that
    output. *)
Theorem test_returns_average_and_percentage model test_loader criteria
        device w (Hnonempty : dataset_len test_loader <> 0%nat) :
  (exists ols : list (tensor * tensor),
     List.length ols = loader_len test_loader
     /\ trace_of (test model test_loader criteria device w)
        = EModelEval model :: ENoGradEnter ::
            flat_map
              (fun bo : (tensor * tensor) * (tensor * tensor) =>
                 [ ETo (fst (fst bo)) device
                       (tensor_to (fst (fst bo)) device);
                   ETo (snd (fst bo)) device
                       (tensor_to (snd (fst bo)) device);
                   EAutocastEnter None;
                   EForward model (tensor_to (fst (fst bo)) device) None
                            (fst (snd bo));
                   ECriteria criteria (fst (snd bo))
                             (tensor_to (snd (fst bo)) device)
                             (Some "sum"%string) (snd (snd bo));
                   EAutocastExit None ])
              (combine (batches test_loader) ols)
            ++ [ENoGradExit]
     /\ value_of (test model test_loader criteria device w)
        = Ok (over_len
                (running_sum (PInt 0)
                   (map (fun ol : tensor * tensor => tensor_item (snd ol))
                        ols))
                (dataset_len test_loader),
              percent_of
                (running_sum (PInt 0)
                   (map (fun bo : (tensor * tensor) * (tensor * tensor) =>
                           tensor_item
                             (tensor_sum
                                (tensor_eq
                                   (tensor_argmax (fst (snd bo)) 1 true)
                                   (tensor_view_as
                                      (tensor_to (snd (fst bo)) device)
                                      (tensor_argmax (fst (snd bo)) 1
                                                     true)))))
                        (combine (batches test_loader) ols)))
                (dataset_len test_loader)))
  /\ Forall sums_over_batch
            (trace_of (test model test_loader criteria device w)).
Proof.
  split.
  - destruct (test_loop_outcome model criteria device (batches test_loader)
                (PInt 0) (PInt 0) (no_grad_enter (model_eval model w)))
      as (ols & Hlen & Htr & Hval).
    exists ols; split; [exact Hlen|split].
    + rewrite test_run; unfold trace_of at 1; cbn [snd].
      unfold test_body_run; rewrite Htr; reflexivity.
    + rewrite test_run; unfold value_of at 1; cbn [fst].
      unfold test_body_run; rewrite Hval.
      unfold test_return; rewrite !py_truediv_len.
      apply Nat.eqb_neq in Hnonempty; rewrite Hnonempty.
      cbn [bind_result]; rewrite percent_of_len.
      reflexivity.
  - destruct (test_trace model test_loader criteria device w)
      as [segs [Htr Hall]].
    rewrite Htr; clear Htr.
    constructor; [exact I|]. constructor; [exact I|].
    apply Forall_app; split; [|repeat constructor].
    apply Forall_concat.
    eapply Forall2_right; [|exact Hall].
    intros batch seg (output & loss & ->).
    repeat constructor.
Qed.

Lemma test_batch_preserves {A} (obs : world -> A) model criteria device acc
      batch w :
  inference_preserves obs ->
  obs (world_of (test_batch model criteria device acc batch w)) = obs w.
Proof.
  intros Hobs; destruct acc as [test_loss correct], batch as [data target].
  run_monad.
  pose proof (ip_model_call Hobs model (tensor_to data device)
                            (autocast_enter None w)) as Hcall.
  destruct (model_call model (tensor_to data device) None
                       (autocast_enter None w)) as [output w1].
  pose proof (ip_criteria_call Hobs criteria output
                               (tensor_to target device) w1) as Hcrit.
  destruct (criteria_call criteria output (tensor_to target device)
                          (Some "sum"%string) w1) as [loss w2].
  simpl in *.
  now rewrite (ip_autocast_exit Hobs), Hcrit, Hcall,
    (ip_autocast_enter Hobs).
Qed.

Lemma test_loop_preserves {A} (obs : world -> A) model criteria device xs
      acc w :
  inference_preserves obs ->
  obs (world_of (for_each (test_batch model criteria device) xs acc w))
  = obs w.
Proof.
  intros Hobs; revert acc w.
  induction xs as [|batch xs IH]; intros acc w; [reflexivity|].
  cbn [for_each]; rewrite bind_run.
  unfold world_of at 1; cbn [fst snd].
  fold (world_of (for_each (test_batch model criteria device) xs
                   (value_of (test_batch model criteria device acc batch w))
                   (world_of (test_batch model criteria device acc batch
                                         w)))).
  rewrite IH.
  now apply test_batch_preserves.
Qed.

(** C7.  [test] makes no backward pass and no optimizer, scaler or
    scheduler call.  So any part of the framework state that the calls
    of inference (the forward pass, the criterion, entering and leaving
    the no-grad and autocast regions) do not write, such as the
    parameters of the model or the state of an optimizer, is after
    [test] what it was right after [model.eval()]. *)
Theorem test_leaves_trained_state {A} (obs : world -> A)
        (Hobs : inference_preserves obs) model test_loader criteria device
        w :
  Forall (fun e => is_update e = false)
         (trace_of (test model test_loader criteria device w))
  /\ obs (world_of (test model test_loader criteria device w))
     = obs (model_eval model w).
Proof.
  split.
  - destruct (test_trace model test_loader criteria device w)
      as [segs [Htr Hall]].
    rewrite Htr; clear Htr.
    constructor; [reflexivity|]. constructor; [reflexivity|].
    apply Forall_app; split; [|repeat constructor].
    apply Forall_concat.
    eapply Forall2_right; [|exact Hall].
    intros batch seg (output & loss & ->).
    repeat constructor.
  - rewrite test_run; unfold world_of at 1; cbn [fst snd].
    rewrite (ip_no_grad_exit Hobs).
    unfold test_body_run; rewrite test_loop_preserves by exact Hobs.
    apply (ip_no_grad_enter Hobs).
Qed.

(** C3, as amended.  [test] and the training function call the same
    model on the same device-moved input of every batch, each inside
    one autocast region; but the training function passes [dropout] as
    second argument where [test] passes the input alone, and it enters
    autocast with [dtype=torch.float16] where [test] gives autocast no
    argument. *)
Theorem test_and_train_forward_invocations model loader optimizer criteria
        dropout device scaler scheduler w w' :
  forward_invocations (trace_of (test model loader criteria device w))
  = map (fun batch : tensor * tensor =>
           {| inv_model := model;
              inv_data := tensor_to (fst batch) device;
              inv_dropout := None;
              inv_autocast := [None] |})
        (batches loader)
  /\ forward_invocations
       (trace_of (internal model loader optimizer criteria dropout device
                           scaler scheduler w'))
     = map (fun batch : tensor * tensor =>
              {| inv_model := model;
                 inv_data := tensor_to (fst batch) device;
                 inv_dropout := Some dropout;
                 inv_autocast := [Some float16] |})
           (batches loader).
Proof.
  split.
  - destruct (test_trace model loader criteria device w)
      as [segs [Htr Hall]].
    rewrite Htr; clear Htr.
    unfold forward_invocations.
    change (EModelEval model :: ENoGradEnter :: concat segs ++ [ENoGradExit])
      with ([EModelEval model; ENoGradEnter] ++ concat segs ++ [ENoGradExit]).
    rewrite !forward_invocations_app.
    change (forward_invocations_from ctx0 [EModelEval model; ENoGradEnter])
      with (@nil invocation).
    change (forward_invocations_from
              (run_ctx (run_ctx ctx0 [EModelEval model; ENoGradEnter])
                       (concat segs))
              [ENoGradExit])
      with (@nil invocation).
    rewrite app_nil_r, app_nil_l, <- flat_map_single.
    rewrite forward_invocations_concat
      by (eapply Forall2_right; [|exact Hall];
          intros b seg Hseg; eapply test_segment_balanced; exact Hseg).
    apply flat_map_pieces.
    eapply Forall2_weaken; [|exact Hall].
    intros batch seg (output & loss & ->); reflexivity.
  - destruct (internal_trace model loader optimizer criteria dropout device
                scaler scheduler w') as [segs [Htr Hall]].
    rewrite Htr; clear Htr.
    rewrite <- flat_map_single.
    change (forward_invocations_from ctx0 (concat segs)
            = flat_map
                (fun batch : tensor * tensor =>
                   [ {| inv_model := model;
                        inv_data := tensor_to (fst batch) device;
                        inv_dropout := Some dropout;
                        inv_autocast := [Some float16] |} ])
                (batches loader)).
    rewrite forward_invocations_concat
      by (eapply Forall2_right; [|exact Hall];
          intros b seg Hseg; eapply train_segment_balanced; exact Hseg).
    apply flat_map_pieces.
    eapply Forall2_weaken; [|exact Hall].
    intros batch seg (output & loss & scaled & ->).
    destruct scheduler; reflexivity.
Qed.
End Evaluation.

(** ** The two [return] statements *)

Section Returns.
Context {PF : PyFloat} {FW : Framework}.

Lemma internal_loop_value model train_loader optimizer criteria dropout
      device scaler scheduler w :
  value_of (internal model train_loader optimizer criteria dropout device
                     scaler scheduler w)
  = internal_return train_loader
      (value_of (internal_loop model train_loader optimizer criteria dropout
                               device scaler scheduler w)).
Proof.
  unfold internal, bind, ret, value_of.
  destruct (internal_loop model train_loader optimizer criteria dropout
                          device scaler scheduler w) as [[acc w1] tr].
  reflexivity.
Qed.

Lemma test_loop_value model test_loader criteria device w :
  value_of (test model test_loader criteria device w)
  = test_return test_loader
      (value_of (test_loop model test_loader criteria device w)).
Proof.
  unfold test, bind, ret, value_of.
  destruct (test_loop model test_loader criteria device w)
    as [[acc w1] tr].
  reflexivity.
Qed.

(** C10.  Neither [return] guards its divisions.  The training function
    returns its pair exactly when [train_loader] has at least one batch
    and [train_loader.dataset] at least one example, and raises
    [ZeroDivisionError] otherwise; [test] returns its pair exactly when
    [test_loader.dataset] has at least one example, and raises
    [ZeroDivisionError] otherwise. *)
Theorem returns_divide_unguarded model lo optimizer criteria dropout device
        scaler scheduler w :
  value_of (internal model lo optimizer criteria dropout device scaler
                     scheduler w)
  = (if (loader_len lo =? 0)%nat || (dataset_len lo =? 0)%nat
     then Raise ZeroDivisionError
     else
       Ok (over_len
             (fst (value_of (internal_loop model lo optimizer criteria
                                           dropout device scaler scheduler
                                           w)))
             (loader_len lo),
           over_len
             (py_mul hundred
                (snd (value_of (internal_loop model lo optimizer criteria
                                              dropout device scaler
                                              scheduler w))))
             (dataset_len lo)))
  /\ value_of (test model lo criteria device w)
     = (if (dataset_len lo =? 0)%nat
        then Raise ZeroDivisionError
        else
          Ok (over_len
                (fst (value_of (test_loop model lo criteria device w)))
                (dataset_len lo),
              over_len
                (py_mul hundred
                   (snd (value_of (test_loop model lo criteria device w))))
                (dataset_len lo))).
Proof.
  split.
  - rewrite internal_loop_value.
    destruct (value_of (internal_loop model lo optimizer criteria dropout
                                      device scaler scheduler w))
      as [epoch_loss correct].
    unfold internal_return; rewrite !py_truediv_len.
    destruct (loader_len lo =? 0)%nat, (dataset_len lo =? 0)%nat;
      reflexivity.
  - rewrite test_loop_value.
    destruct (value_of (test_loop model lo criteria device w))
      as [test_loss correct].
    unfold test_return; rewrite !py_truediv_len.
    destruct (dataset_len lo =? 0)%nat; reflexivity.
Qed.
End Returns.

(** ** Further properties of the two loops *)

Section Further.
Context {PF : PyFloat} {FW : Framework}.

(** The training loop, batch by batch: the tensors the forward pass, the
    criterion and the scaler returned for each batch, the calls made,
    and the accumulators at the end. *)
Lemma internal_loop_outcome model optimizer criteria dropout device scaler
      scheduler xs epoch_loss correct w :
  exists ols : list (tensor * tensor * tensor),
    List.length ols = List.length xs
    /\ trace_of (for_each (internal_batch model optimizer criteria dropout
                                          device scaler scheduler)
                          xs (epoch_loss, correct) w)
       = flat_map
           (fun bo : (tensor * tensor) * (tensor * tensor * tensor) =>
              train_calls model optimizer criteria dropout device scaler
                          scheduler (fst bo) (fst (fst (snd bo)))
                          (snd (fst (snd bo))) (snd (snd bo)))
           (combine xs ols)
    /\ value_of (for_each (internal_batch model optimizer criteria dropout
                                          device scaler scheduler)
                          xs (epoch_loss, correct) w)
       = (running_sum epoch_loss
            (map (fun o : tensor * tensor * tensor =>
                    tensor_item (snd (fst o))) ols),
          running_sum correct
            (map (fun bo : (tensor * tensor) * (tensor * tensor * tensor) =>
                    count_correct (fst (fst (snd bo)))
                                  (tensor_to (snd (fst bo)) device))
                 (combine xs ols))).
Proof.
  revert epoch_loss correct w.
  induction xs as [|batch xs IH]; intros epoch_loss correct w.
  - exists []; repeat split.
  - cbn [for_each]; rewrite bind_run.
    destruct (internal_batch_run model optimizer criteria dropout device
                scaler scheduler epoch_loss correct batch w)
      as (output & loss & scaled & w' & ->).
    unfold value_of, world_of, trace_of in *; cbn [fst snd].
    destruct (IH (py_add epoch_loss (tensor_item loss))
                 (py_add correct
                         (count_correct output
                                        (tensor_to (snd batch) device)))
                 w')
      as (ols & Hlen & Htr & Hval).
    exists ((output, loss, scaled) :: ols); split; [|split].
    + simpl; now rewrite Hlen.
    + rewrite Htr; reflexivity.
    + rewrite Hval; cbn [combine map fst snd].
      now rewrite !running_sum_cons.
Qed.


(** X1.  When [train_loader] has at least one batch and its dataset at
    least one example, the training function returns the sum of the batch
    losses divided by the number of batches and 100.0 times the number of
    correct predictions divided by the number of examples.  The sum adds
    up, over the batches of [train_loader] in order, the [.item()] of the
    loss of a criterion called without [reduction] argument on the
    model's output for the batch and the batch's target; the number of
    correct predictions adds up the [.item()] of the sum of
    [pred.eq(target.view_as(pred))], [pred] being the argmax along
    dimension 1, dimension kept, of that output. *)
Theorem train_returns_batch_average_and_percentage model train_loader
        optimizer criteria dropout device scaler scheduler w
        (Hbatches : loader_len train_loader <> 0%nat)
        (Hexamples : dataset_len train_loader <> 0%nat) :
  (exists ols : list (tensor * tensor * tensor),
     List.length ols = loader_len train_loader
     /\ trace_of (internal model train_loader optimizer criteria dropout
                           device scaler scheduler w)
        = EModelTrain model ::
            flat_map
              (fun bo : (tensor * tensor) * (tensor * tensor * tensor) =>
                 [ ETo (fst (fst bo)) device
                       (tensor_to (fst (fst bo)) device);
                   ETo (snd (fst bo)) device
                       (tensor_to (snd (fst bo)) device);
                   EZeroGrad optimizer;
                   EAutocastEnter (Some float16);
                   EForward model (tensor_to (fst (fst bo)) device)
                            (Some dropout) (fst (fst (snd bo)));
                   ECriteria criteria (fst (fst (snd bo)))
                             (tensor_to (snd (fst bo)) device) None
                             (snd (fst (snd bo)));
                   EAutocastExit (Some float16);
                   EScale scaler (snd (fst (snd bo))) (snd (snd bo));
                   EBackward (snd (snd bo));
                   EScalerStep scaler optimizer;
                   EScalerUpdate scaler ]
                 ++ scheduler_events scheduler)
              (combine (batches train_loader) ols)
     /\ value_of (internal model train_loader optimizer criteria dropout
                           device scaler scheduler w)
        = Ok (over_len
                (running_sum (PInt 0)
                   (map (fun o : tensor * tensor * tensor =>
                           tensor_item (snd (fst o))) ols))
                (loader_len train_loader),
              percent_of
                (running_sum (PInt 0)
                   (map (fun bo : (tensor * tensor)
                                  * (tensor * tensor * tensor) =>
                           tensor_item
                             (tensor_sum
                                (tensor_eq
                                   (tensor_argmax (fst (fst (snd bo))) 1
                                                  true)
                                   (tensor_view_as
                                      (tensor_to (snd (fst bo)) device)
                                      (tensor_argmax (fst (fst (snd bo))) 1
                                                     true)))))
                        (combine (batches train_loader) ols)))
                (dataset_len train_loader)))
  /\ Forall default_reduction
            (trace_of (internal model train_loader optimizer criteria dropout
                                device scaler scheduler w)).
Proof.
  split.
  - destruct (internal_loop_outcome model optimizer criteria dropout device
                scaler scheduler (batches train_loader) (PInt 0) (PInt 0)
                (model_train model w))
      as (ols & Hlen & Htr & Hval).
    exists ols; split; [exact Hlen|split].
    + rewrite internal_run; unfold trace_of at 1; cbn [snd].
      unfold internal_body_run; rewrite Htr; reflexivity.
    + rewrite internal_run; unfold value_of at 1; cbn [fst].
      unfold internal_body_run; rewrite Hval.
      unfold internal_return; rewrite !py_truediv_len.
      apply Nat.eqb_neq in Hbatches, Hexamples.
      rewrite Hbatches, Hexamples.
      cbn [bind_result]; rewrite percent_of_len.
      reflexivity.
  - destruct (internal_trace model train_loader optimizer criteria dropout
                device scaler scheduler w) as [segs [Htr Hall]].
    rewrite Htr; clear Htr.
    constructor; [exact I|].
    apply Forall_concat.
    eapply Forall2_right; [|exact Hall].
    intros batch seg (output & loss & scaled & ->).
    destruct scheduler; repeat constructor.
Qed.

(** X2.  Both functions close every region they open: after the calls of
    a run, the autocast regions and the no-grad regions that are open are
    those that were open before it. *)
Theorem regions_closed_on_return model lo optimizer criteria dropout device
        scaler scheduler w c :
  run_ctx c (trace_of (internal model lo optimizer criteria dropout device
                                scaler scheduler w)) = c
  /\ run_ctx c (trace_of (test model lo criteria device w)) = c.
Proof.
  split.
  - destruct (internal_trace model lo optimizer criteria dropout device scaler
                scheduler w) as [segs [Htr Hall]].
    rewrite Htr; clear Htr.
    change (run_ctx c (concat segs) = c).
    apply balanced_concat.
    eapply Forall2_right; [|exact Hall].
    intros batch seg Hseg; eapply train_segment_balanced; exact Hseg.
  - destruct (test_trace model lo criteria device w) as [segs [Htr Hall]].
    rewrite Htr; clear Htr.
    change (EModelEval model :: ENoGradEnter :: concat segs ++ [ENoGradExit])
      with ([EModelEval model; ENoGradEnter] ++ concat segs ++ [ENoGradExit]).
    rewrite !run_ctx_app.
    rewrite (balanced_concat (segs := segs))
      by (eapply Forall2_right; [|exact Hall];
          intros batch seg Hseg; eapply test_segment_balanced; exact Hseg).
    destruct c as [ac ng]; reflexivity.
Qed.

(** X3.  The training function switches the model to training mode as
    its first call and [test] switches it to evaluation mode as its first
    call; neither switches the mode again, so [test] returns with the
    model still in evaluation mode. *)
Theorem mode_switched_once_at_entry model lo optimizer criteria dropout device
        scaler scheduler w :
  (exists rest,
     trace_of (internal model lo optimizer criteria dropout device scaler
                        scheduler w) = EModelTrain model :: rest
     /\ Forall (fun e => is_mode_switch e = false) rest)
  /\ (exists rest,
        trace_of (test model lo criteria device w) = EModelEval model :: rest
        /\ Forall (fun e => is_mode_switch e = false) rest).
Proof.
  split.
  - destruct (internal_trace model lo optimizer criteria dropout device scaler
                scheduler w) as [segs [Htr Hall]].
    exists (concat segs); split; [exact Htr|].
    apply Forall_concat.
    eapply Forall2_right; [|exact Hall].
    intros batch seg (output & loss & scaled & ->).
    destruct scheduler; repeat constructor.
  - destruct (test_trace model lo criteria device w) as [segs [Htr Hall]].
    exists (ENoGradEnter :: concat segs ++ [ENoGradExit]); split; [exact Htr|].
    constructor; [reflexivity|].
    apply Forall_app; split; [|repeat constructor].
    apply Forall_concat.
    eapply Forall2_right; [|exact Hall].
    intros batch seg (output & loss & ->).
    repeat constructor.
Qed.

(** X4.  On a loader that yields no batch, the training function calls
    [model.train()] and nothing else and then raises [ZeroDivisionError],
    whatever the length of the dataset; [test] calls [model.eval()],
    enters and leaves the no-grad region, and returns zero loss and zero
    accuracy unless the dataset is empty, in which case it raises. *)
Theorem runs_without_batches model n optimizer criteria dropout device scaler
        scheduler w :
  internal model {| batches := []; dataset_len := n |} optimizer criteria
           dropout device scaler scheduler w
  = (Raise ZeroDivisionError, model_train model w, [EModelTrain model])
  /\ test model {| batches := []; dataset_len := n |} criteria device w
     = (if (n =? 0)%nat
        then Raise ZeroDivisionError
        else Ok (over_len (PInt 0) n, over_len (py_mul hundred (PInt 0)) n),
        no_grad_exit (no_grad_enter (model_eval model w)),
        [EModelEval model; ENoGradEnter; ENoGradExit]).
Proof.
  split.
  - reflexivity.
  - rewrite test_run; unfold test_body_run, value_of, world_of, trace_of.
    cbn [batches for_each ret fst snd app].
    unfold test_return; cbn [dataset_len].
    rewrite !py_truediv_len.
    destruct (n =? 0)%nat; reflexivity.
Qed.

(** X5.  The length of the dataset plays no part before the [return]:
    two loaders that yield the same batches lead to the same calls and
    the same final world, in training and in evaluation.  A dataset of
    length zero therefore makes either function raise only after every
    batch has been run. *)
Theorem dataset_length_read_at_return_only model lo n optimizer criteria
        dropout device scaler scheduler w :
  world_of (internal model {| batches := batches lo; dataset_len := n |}
                     optimizer criteria dropout device scaler scheduler w)
  = world_of (internal model lo optimizer criteria dropout device scaler
                       scheduler w)
  /\ trace_of (internal model {| batches := batches lo; dataset_len := n |}
                        optimizer criteria dropout device scaler scheduler w)
     = trace_of (internal model lo optimizer criteria dropout device scaler
                          scheduler w)
  /\ world_of (test model {| batches := batches lo; dataset_len := n |}
                    criteria device w)
     = world_of (test model lo criteria device w)
  /\ trace_of (test model {| batches := batches lo; dataset_len := n |}
                    criteria device w)
     = trace_of (test model lo criteria device w).
Proof.
  rewrite !internal_run, !test_run.
  unfold internal_body_run, test_body_run, world_of, trace_of; cbn [batches].
  repeat split; reflexivity.
Qed.

(** X6.  Whenever either function returns, both components of the pair
    are floats: the second is the accuracy in percent, not the integer
    number of correct predictions. *)
Theorem returned_statistics_are_floats model lo optimizer criteria dropout
        device scaler scheduler w :
  pair_of_floats
    (value_of (internal model lo optimizer criteria dropout device scaler
                        scheduler w))
  /\ pair_of_floats (value_of (test model lo criteria device w)).
Proof.
  split.
  - rewrite internal_loop_value.
    destruct (value_of (internal_loop model lo optimizer criteria dropout
                                      device scaler scheduler w))
      as [epoch_loss correct].
    unfold internal_return; rewrite !py_truediv_len.
    destruct (loader_len lo =? 0)%nat, (dataset_len lo =? 0)%nat,
      epoch_loss, correct; exact I.
  - rewrite test_loop_value.
    destruct (value_of (test_loop model lo criteria device w))
      as [test_loss correct].
    unfold test_return; rewrite !py_truediv_len.
    destruct (dataset_len lo =? 0)%nat, test_loss, correct; exact I.
Qed.


(** X8.  In [test] the forward pass and the criterion of every batch are
    called, once each per batch, inside exactly one autocast region,
    entered without dtype argument, and the two device transfers of every
    batch are made outside every autocast region. *)
Theorem test_forward_and_loss_under_autocast model test_loader criteria
        device w :
  Forall test_autocast_placement
         (annotate ctx0 (trace_of (test model test_loader criteria device w)))
  /\ List.length
       (filter is_forward
          (trace_of (test model test_loader criteria device w)))
     = loader_len test_loader
  /\ List.length
       (filter is_criteria
          (trace_of (test model test_loader criteria device w)))
     = loader_len test_loader
  /\ List.length
       (filter is_to (trace_of (test model test_loader criteria device w)))
     = (2 * loader_len test_loader)%nat.
Proof.
  destruct (test_trace model test_loader criteria device w)
    as [segs [Htr Hall]].
  rewrite Htr; clear Htr; split; [|split; [|split]].
  - simpl.
    constructor; [exact I|]. constructor; [exact I|].
    rewrite annotate_app; apply Forall_app; split.
    + apply Forall_annotate_concat.
      eapply Forall2_right; [|exact Hall].
      intros batch seg Hseg; split.
      * eapply test_segment_balanced; exact Hseg.
      * destruct Hseg as (output & loss & ->).
        simpl; repeat constructor.
    + simpl; repeat constructor.
  - simpl; rewrite filter_app, length_app, filter_concat; simpl.
    rewrite Nat.add_0_r; unfold loader_len.
    induction Hall as [|b seg l segs Hseg _ IH]; simpl; [reflexivity|].
    rewrite length_app, IH.
    destruct Hseg as (output & loss & ->); reflexivity.
  - simpl; rewrite filter_app, length_app, filter_concat; simpl.
    rewrite Nat.add_0_r; unfold loader_len.
    induction Hall as [|b seg l segs Hseg _ IH]; simpl; [reflexivity|].
    rewrite length_app, IH.
    destruct Hseg as (output & loss & ->); reflexivity.
  - cbn [filter is_to]; rewrite filter_app, length_app, filter_concat.
    cbn [filter is_to List.length]; rewrite Nat.add_0_r; unfold loader_len.
    induction Hall as [|b seg l segs Hseg _ IH]; [reflexivity|].
    cbn [map concat List.length]; rewrite length_app, IH.
    destruct Hseg as (output & loss & ->).
    cbn [test_calls filter is_to List.length]; lia.
Qed.
End Further.

(** ** Concrete runs on the small framework *)

Module MiniRuns.
Import Mini.
Local Open Scope string_scope.

(** Two batches, a scheduler: thirteen calls per batch after
    [model.train()], and the average loss per batch and the accuracy in
    percent as result. *)
Example internal_two_batches :
  internal tt two_batches tt tt true "cpu" tt (Some tt) w0
  = (Ok (PFloat (16 # 8), PFloat (100 # 2)),
     {| weight := -32 # 32; grad := 32 # 4; lr := 1 # 4; loss_scale := 2;
        training := true; autocast_regions := []; no_grad_regions := 0 |},
     [ EModelTrain tt;
       ETo (Real 2) "cpu" (Real 2); ETo (Real 2) "cpu" (Real 2);
       EZeroGrad tt; EAutocastEnter (Some float16);
       EForward tt (Real 2) (Some true) (Real 2);
       ECriteria tt (Real 2) (Real 2) None (Real 0);
       EAutocastExit (Some float16); EScale tt (Real 0) (Real 0);
       EBackward (Real 0); EScalerStep tt tt; EScalerUpdate tt;
       ESchedulerStep tt;
       ETo (Real 3) "cpu" (Real 3); ETo (Real 1) "cpu" (Real 1);
       EZeroGrad tt; EAutocastEnter (Some float16);
       EForward tt (Real 3) (Some true) (Real (6 # 2));
       ECriteria tt (Real (6 # 2)) (Real 1) None (Real (16 # 4));
       EAutocastExit (Some float16);
       EScale tt (Real (16 # 4)) (Real (32 # 4));
       EBackward (Real (32 # 4)); EScalerStep tt tt; EScalerUpdate tt;
       ESchedulerStep tt ]).
Proof. vm_compute; reflexivity. Qed.

Example test_two_batches :
  test tt two_batches tt "cpu" w0
  = (Ok (PFloat (4 # 2), PFloat (100 # 2)),
     w0,
     [ EModelEval tt; ENoGradEnter;
       ETo (Real 2) "cpu" (Real 2); ETo (Real 2) "cpu" (Real 2);
       EAutocastEnter None; EForward tt (Real 2) None (Real 2);
       ECriteria tt (Real 2) (Real 2) (Some "sum") (Real 0);
       EAutocastExit None;
       ETo (Real 3) "cpu" (Real 3); ETo (Real 1) "cpu" (Real 1);
       EAutocastEnter None; EForward tt (Real 3) None (Real 3);
       ECriteria tt (Real 3) (Real 1) (Some "sum") (Real 4);
       EAutocastExit None;
       ENoGradExit ]).
Proof. vm_compute; reflexivity. Qed.

(** No batch: the first division of [internal] is [0 / 0]. *)
Example internal_empty_loader :
  value_of (internal tt empty_loader tt tt true "cpu" tt None w0)
  = Raise ZeroDivisionError.
Proof. vm_compute; reflexivity. Qed.

Example internal_dropped_last :
  value_of (internal tt dropped_last tt tt true "cpu" tt None w0)
  = Raise ZeroDivisionError.
Proof. vm_compute; reflexivity. Qed.

Example test_empty_loader :
  value_of (test tt empty_loader tt "cpu" w0) = Raise ZeroDivisionError.
Proof. vm_compute; reflexivity. Qed.

Example test_dropped_last :
  value_of (test tt dropped_last tt "cpu" w0)
  = Ok (PFloat (0 # 1), PFloat (0 # 1)).
Proof. vm_compute; reflexivity. Qed.

(** C4 on two batches of one example each. *)
Lemma test_returns_average_and_percentage_two_batches :
  dataset_len two_batches <> 0%nat
  /\ ((exists ols : list (scalar * scalar),
         List.length ols = loader_len two_batches
         /\ trace_of (test tt two_batches tt "cpu" w0)
            = EModelEval tt :: ENoGradEnter ::
                flat_map
                  (fun bo : (scalar * scalar) * (scalar * scalar) =>
                     test_calls tt tt "cpu" (fst bo) (fst (snd bo))
                                (snd (snd bo)))
                  (combine (batches two_batches) ols)
                ++ [ENoGradExit]
         /\ value_of (test tt two_batches tt "cpu" w0)
            = Ok (over_len
                    (running_sum (PInt 0)
                       (map (fun ol : scalar * scalar => tensor_item (snd ol))
                            ols))
                    (dataset_len two_batches),
                  percent_of
                    (running_sum (PInt 0)
                       (map (fun bo : (scalar * scalar) * (scalar * scalar) =>
                               tensor_item
                                 (tensor_sum
                                    (tensor_eq
                                       (tensor_argmax (fst (snd bo)) 1 true)
                                       (tensor_view_as
                                          (tensor_to (snd (fst bo)) "cpu")
                                          (tensor_argmax (fst (snd bo)) 1
                                                         true)))))
                            (combine (batches two_batches) ols)))
                    (dataset_len two_batches)))
      /\ Forall sums_over_batch
                (trace_of (test tt two_batches tt "cpu" w0))).
Proof.
  split.
  - simpl; lia.
  - apply (@test_returns_average_and_percentage QFloat framework
             tt two_batches tt "cpu" w0).
    simpl; lia.
Defined.

(** C7 on two batches: [test] leaves the weight, its gradient, the
    learning rate and the loss scale as they were. *)
Lemma test_leaves_trained_state_two_batches :
  inference_preserves trained_state
  /\ (Forall (fun e => is_update e = false)
             (trace_of (test tt two_batches tt "cpu" w0))
      /\ trained_state (world_of (test tt two_batches tt "cpu" w0))
         = trained_state (@model_eval QFloat framework tt w0)).
Proof.
  split.
  - constructor; intros; reflexivity.
  - apply (@test_leaves_trained_state QFloat framework _ trained_state).
    constructor; intros; reflexivity.
Defined.

(** C3 as stated fails on one batch: [test] calls [model(data)] inside
    [autocast()], the training function [model(data, dropout)] inside
    [autocast(dtype=torch.float16)]; the arguments of the two forward
    calls already differ. *)
Lemma test_forward_invocation_differs :
  forward_invocations (trace_of (test tt one_batch tt "cpu" w0))
  <> forward_invocations
       (trace_of (train false (5 # 10000)%Q tt one_batch tt tt true "cpu" tt
                        None w0))
  /\ map inv_dropout
         (forward_invocations (trace_of (test tt one_batch tt "cpu" w0)))
     <> map inv_dropout
            (forward_invocations
               (trace_of (train false (5 # 10000)%Q tt one_batch tt tt true
                                "cpu" tt None w0))).
Proof. split; vm_compute; discriminate. Qed.
End MiniRuns.

(** ** More concrete runs *)

Module MiniChecks.
Import Mini.
Local Open Scope string_scope.

(** X1 on two batches of one example each, with a scheduler. *)
Lemma train_returns_batch_average_and_percentage_two_batches :
  loader_len two_batches <> 0%nat
  /\ dataset_len two_batches <> 0%nat
  /\ ((exists ols : list (scalar * scalar * scalar),
         List.length ols = loader_len two_batches
         /\ trace_of (internal tt two_batches tt tt true "cpu" tt (Some tt)
                               w0)
            = EModelTrain tt ::
                flat_map
                  (fun bo : (scalar * scalar) * (scalar * scalar * scalar) =>
                     train_calls tt tt tt true "cpu" tt (Some tt) (fst bo)
                                 (fst (fst (snd bo))) (snd (fst (snd bo)))
                                 (snd (snd bo)))
                  (combine (batches two_batches) ols)
         /\ value_of (internal tt two_batches tt tt true "cpu" tt (Some tt)
                               w0)
            = Ok (over_len
                    (running_sum (PInt 0)
                       (map (fun o : scalar * scalar * scalar =>
                               tensor_item (snd (fst o))) ols))
                    (loader_len two_batches),
                  percent_of
                    (running_sum (PInt 0)
                       (map (fun bo : (scalar * scalar)
                                      * (scalar * scalar * scalar) =>
                               tensor_item
                                 (tensor_sum
                                    (tensor_eq
                                       (tensor_argmax (fst (fst (snd bo))) 1
                                                      true)
                                       (tensor_view_as
                                          (tensor_to (snd (fst bo)) "cpu")
                                          (tensor_argmax
                                             (fst (fst (snd bo))) 1 true)))))
                            (combine (batches two_batches) ols)))
                    (dataset_len two_batches)))
      /\ Forall default_reduction
                (trace_of (internal tt two_batches tt tt true "cpu" tt
                                    (Some tt) w0))).
Proof.
  split; [|split].
  - unfold loader_len; simpl; lia.
  - simpl; lia.
  - apply (@train_returns_batch_average_and_percentage QFloat framework
             tt two_batches tt tt true "cpu" tt (Some tt) w0).
    + unfold loader_len; simpl; lia.
    + simpl; lia.
Defined.
End MiniChecks.
